(** * The replicache push/pull server core (replicache.go)

    A shallow embedding of [replicache.go]: the push endpoint
    [PushHandler], the transaction pipeline [handlePush], and the
    [Handler] boundary through which the domain logic is injected.

    The database ([*sql.DB]) is modelled as a store of contents [S] with a
    table of open transactions. The [Handler] is handed the live
    transaction, as in the source: it is a program over that handle, which
    can read and write the contents and can also commit or roll back the
    transaction itself. Every call the core makes to the database or to
    the [Handler] is recorded in a call log, so that statements about what
    the core does and does not invoke can be read off a run. The response
    writer is a value the endpoint returns. *)

From Stdlib Require Import ZArith PrimFloat.
From stdpp Require Import base option gmap strings list.

Local Open Scope Z_scope.
Local Open Scope string_scope.

(** ** Data model *)

(** Go's [error] interface, identified with the message it carries;
    the [nil] error is [None] in an [option error]. *)
Definition error := string.

(** [sql.ErrTxDone] *)
Definition ErrTxDone : error :=
  "sql: transaction has already been committed or rolled back".

(** [sql.IsolationLevel] *)
Inductive IsolationLevel :=
| LevelDefault
| LevelReadUncommitted
| LevelReadCommitted
| LevelWriteCommitted
| LevelRepeatableRead
| LevelSnapshot
| LevelSerializable
| LevelLinearizable.

(** [sql.TxOptions] *)
Record TxOptions := {
  Isolation : IsolationLevel;
  ReadOnly : bool
}.

(** [*sql.Tx]: a handle on a transaction of the database; the contents the
    transaction works on live in the database, under [tx_id]. *)
Record Tx := {
  tx_id : nat;
  tx_opts : TxOptions
}.

(** [type ClientInfo struct] *)
Record ClientInfo := {
  Auth : string;
  ClientGroupID : string;
  ProfileID : string;
  SchemaVersion : string
}.

(** [type Mutation struct]. [ID] is a Go [int], [Args] a [json.RawMessage]
    (the raw bytes of the argument), [Timestamp] a [float64]. *)
Record Mutation := {
  ClientID : string;
  ID : Z;
  Name : string;
  Args : string;
  Timestamp : float
}.

(** [type PushRequest struct]: the embedded [ClientInfo], the batch and the
    transaction handle. *)
Record PushRequest := {
  push_ClientInfo : ClientInfo;
  push_Mutations : list Mutation;
  push_Tx : Tx
}.

(** [type PullRequest struct] *)
Record PullRequest := {
  pull_ClientInfo : ClientInfo;
  pull_Tx : Tx
}.

(** The anonymous struct [req] that [PushHandler] decodes the body into. *)
Record pushBody := {
  PushVersion : Z;
  req_ClientGroupID : string;
  req_Mutations : list Mutation;
  req_ProfileID : string;
  req_SchemaVersion : string
}.

(** [net/http]: the status codes the endpoint writes. *)
Definition StatusOK : Z := 200.
Definition StatusInternalServerError : Z := 500.

(** [http.Header] is a [map[string][]string]; [Get] returns the first value
    stored under the key, or the empty string. The key is given in its
    canonical form, as ["Authorization"] is. *)
Definition Header_Get (h : gmap string (list string)) (key : string) : string :=
  match h !! key with
  | Some (v :: _) => v
  | _ => ""
  end.

(** [http.ResponseWriter]: the status line, once written, and the body
    written so far. *)
Record ResponseWriter := {
  status : option Z;
  body : string
}.

(** [w.WriteHeader(code)]: the first call fixes the status, a later one is
    ignored. *)
Definition WriteHeader (code : Z) (w : ResponseWriter) : ResponseWriter :=
  match status w with
  | None => {| status := Some code; body := body w |}
  | Some _ => w
  end.

(** What the client receives once the handler function returns: the status
    (200 when none was written) and the body. *)
Definition response (w : ResponseWriter) : Z * string :=
  (default StatusOK (status w), body w).

Definition fresh_writer : ResponseWriter := {| status := None; body := "" |}.

(** The options [handlePush] opens its transaction with. *)
Definition pushTxOptions : TxOptions :=
  {| Isolation := LevelSerializable; ReadOnly := false |}.

(** What [tx.Commit()] can come to, as the driver and the context decide:
    the contents are persisted and no error is returned; the contents are
    persisted but an error is returned all the same (the acknowledgement
    is lost); the driver refuses (a serialization conflict, say), the
    transaction is over and nothing is persisted; or the context of the
    transaction is done, [Commit] returns its error and leaves the
    transaction open. *)
Inductive CommitOutcome :=
| CommitOK
| CommitLost (err : error)
| CommitRefused (err : error)
| CommitCancelled (err : error).

Section Core.

(** [S]: the contents of the database; [Ctx]: [context.Context];
    [Any]: what [HandlePull] returns ([any]); [DB]: [*sql.DB], the handle
    of the database. *)
Context {S Ctx Any DB : Type}.

(** [*http.Request], as far as the endpoint reads it. *)
Record Request := {
  Body : string;
  Header : gmap string (list string);
  req_Context : Ctx
}.

(** What a method of the Handler does with the [*sql.Tx] it is handed: a
    program over that handle. It can read the contents of the transaction
    ([Query]; nothing comes back once the transaction is over), run a
    statement on them ([Exec]; [ErrTxDone] once the transaction is over),
    and call [Commit] or [Rollback] on the handle itself; each step
    continues with the result it got, and the program ends by returning
    its result. *)
Inductive TxProg (R : Type) : Type :=
| Return (res : R)
| Query (k : option S -> TxProg R)
| Exec (f : S -> S) (k : option error -> TxProg R)
| TxCommit (k : option error -> TxProg R)
| TxRollback (k : option error -> TxProg R).

Arguments Return {R} res.
Arguments Query {R} k.
Arguments Exec {R} f k.
Arguments TxCommit {R} k.
Arguments TxRollback {R} k.

(** The [Handler] interface, with the methods of the two interfaces it
    embeds ([PushHandler.HandlePush], [PullHandler.HandlePull]). The
    transaction a method works on is the [Tx] of the request. *)
Record Handler := {
  HandlePush : Ctx -> PushRequest -> TxProg (option error);
  HandlePull : Ctx -> PullRequest -> TxProg (Any * option error)
}.

(** A method that only reads the contents of its transaction and writes
    new ones, and leaves ending the transaction to its caller. *)
Definition on_contents {R : Type} (finished : R) (f : S -> S * R) : TxProg R :=
  Query (fun contents =>
    match contents with
    | None => Return finished
    | Some s => Exec (fun _ => (f s).1) (fun _ => Return (f s).2)
    end).

(** [type Replicache struct], without the logger (which writes to
    [io.Discard]). *)
Record Replicache := {
  db : DB;
  handler : Handler;
  clientOnPush : bool;
  clientOnPull : bool;
  clientPurgeDuration : Z
}.

(** [newDefaultInstance] *)
Definition newDefaultInstance (d : DB) (h : Handler) : Replicache :=
  {| db := d; handler := h; clientOnPush := false; clientOnPull := false;
     clientPurgeDuration := 0 |}.

(** [NewReplicache]: the options are applied in order, the first error
    stops. *)
Fixpoint apply_options (options : list (Replicache -> error + Replicache))
    (r : Replicache) : error + Replicache :=
  match options with
  | [] => inr r
  | opt :: rest =>
      match opt r with
      | inl err => inl err
      | inr r' => apply_options rest r'
      end
  end.

Definition NewReplicache (d : DB) (h : Handler)
    (options : list (Replicache -> error + Replicache)) : error + Replicache :=
  apply_options options (newDefaultInstance d h).

(** What the environment decides: whether the driver refuses to open a
    transaction on a handle, what a commit comes to, what a rollback of an
    open transaction returns, and how [encoding/json] decodes a body. *)
Variable begin_fault : DB -> Ctx -> TxOptions -> S -> option error.
Variable commit_outcome : S -> S -> CommitOutcome.
Variable rollback_fault : S -> option error.
Variable json_Decode : string -> error + pushBody.

(** The calls the core makes, with their results. *)
Inductive Event :=
| EvBeginTx (ctx : Ctx) (opts : TxOptions) (res : error + Tx)
| EvHandlePush (ctx : Ctx) (pr : PushRequest) (res : option error)
| EvCommit (tx : Tx) (res : option error)
| EvRollback (tx : Tx) (res : option error).

(** The database the handle of the instance points to, and the log of
    calls. [store] is what is committed, [txs] holds the working contents
    of every open transaction. *)
Record World := {
  store : S;
  txs : gmap nat S;
  next_tx : nat;
  calls : list Event
}.

(** Code with effects: a state monad over [World]. *)
Definition M (A : Type) : Type := World -> A * World.

#[global] Instance M_ret : MRet M := fun A a w => (a, w).
#[global] Instance M_bind : MBind M :=
  fun A B f m w => let '(a, w') := m w in f a w'.

Definition log (e : Event) (w : World) : World :=
  {| store := store w; txs := txs w; next_tx := next_tx w;
     calls := calls w ++ [e] |}.

(** *** [database/sql] *)

(** What [tx.Commit()] does to the database: on a finished transaction
    [ErrTxDone] and nothing else; otherwise as the outcome says. *)
Definition tx_commit (tx : Tx) : M (option error) :=
  fun w =>
    match txs w !! tx_id tx with
    | None => (Some ErrTxDone, w)
    | Some work =>
        match commit_outcome (store w) work with
        | CommitOK =>
            (None,
             {| store := work; txs := delete (tx_id tx) (txs w);
                next_tx := next_tx w; calls := calls w |})
        | CommitLost err =>
            (Some err,
             {| store := work; txs := delete (tx_id tx) (txs w);
                next_tx := next_tx w; calls := calls w |})
        | CommitRefused err =>
            (Some err,
             {| store := store w; txs := delete (tx_id tx) (txs w);
                next_tx := next_tx w; calls := calls w |})
        | CommitCancelled err => (Some err, w)
        end
    end.

(** What [tx.Rollback()] does to the database: on a finished transaction
    [ErrTxDone] and nothing else; otherwise the working contents are
    dropped and the transaction is over, whatever is returned. *)
Definition tx_rollback (tx : Tx) : M (option error) :=
  fun w =>
    match txs w !! tx_id tx with
    | None => (Some ErrTxDone, w)
    | Some work =>
        (rollback_fault work,
         {| store := store w; txs := delete (tx_id tx) (txs w);
            next_tx := next_tx w; calls := calls w |})
    end.

(** Running a Handler method on the transaction it was handed. *)
Fixpoint run_prog {R : Type} (tx : Tx) (p : TxProg R) (w : World) : R * World :=
  match p with
  | Return res => (res, w)
  | Query k => run_prog tx (k (txs w !! tx_id tx)) w
  | Exec f k =>
      match txs w !! tx_id tx with
      | None => run_prog tx (k (Some ErrTxDone)) w
      | Some work =>
          run_prog tx (k None)
            {| store := store w; txs := <[tx_id tx := f work]> (txs w);
               next_tx := next_tx w; calls := calls w |}
      end
  | TxCommit k => let '(res, w') := tx_commit tx w in run_prog tx (k res) w'
  | TxRollback k => let '(res, w') := tx_rollback tx w in run_prog tx (k res) w'
  end.

(** *** The calls of the core *)

(** [db.BeginTx(ctx, opts)] *)
Definition BeginTx (d : DB) (ctx : Ctx) (opts : TxOptions) : M (error + Tx) :=
  fun w =>
    match begin_fault d ctx opts (store w) with
    | Some err => (inl err, log (EvBeginTx ctx opts (inl err)) w)
    | None =>
        let tx := {| tx_id := next_tx w; tx_opts := opts |} in
        (inr tx,
         log (EvBeginTx ctx opts (inr tx))
           {| store := store w;
              txs := <[next_tx w := store w]> (txs w);
              next_tx := Datatypes.S (next_tx w);
              calls := calls w |})
    end.

(** [tx.Commit()], called by the core. *)
Definition Commit (tx : Tx) : M (option error) :=
  fun w => let '(res, w') := tx_commit tx w in (res, log (EvCommit tx res) w').

(** [tx.Rollback()], called by the core. *)
Definition Rollback (tx : Tx) : M (option error) :=
  fun w => let '(res, w') := tx_rollback tx w in (res, log (EvRollback tx res) w').

(** [rep.handler.HandlePush(ctx, pr)]: the method runs on the transaction
    of [pr]. *)
Definition call_HandlePush (h : Handler) (ctx : Ctx) (pr : PushRequest)
    : M (option error) :=
  fun w =>
    let '(res, w') := run_prog (push_Tx pr) (HandlePush h ctx pr) w in
    (res, log (EvHandlePush ctx pr res) w').

(** [defer d] in front of [body]: [d] runs when [body] has returned, and
    its result is dropped. *)
Definition defer {A B : Type} (d : M B) (body : M A) : M A :=
  a ← body; _ ← d; mret a.

(** [func (rep *Replicache) handlePush] *)
Definition handlePush (rep : Replicache) (ctx : Ctx) (info : ClientInfo)
    (mutations : list Mutation) : M (option error) :=
  r ← BeginTx (db rep) ctx
        {| Isolation := LevelSerializable; ReadOnly := false |};
  match r with
  | inl err => mret (Some err)
  | inr tx =>
      defer (Rollback tx)
        (err ← call_HandlePush (handler rep) ctx
                 {| push_ClientInfo := info;
                    push_Mutations := mutations;
                    push_Tx := tx |};
         match err with
         | Some err => mret (Some err)
         | None =>
             err ← Commit tx;
             match err with
             | Some err => mret (Some err)
             | None => mret None
             end
         end)
  end.

(** [func (rep *Replicache) PushHandler]: the function it returns, run
    on a writer and a request. *)
Definition PushHandler (rep : Replicache) (w : ResponseWriter) (r : Request)
    : M ResponseWriter :=
  match json_Decode (Body r) with
  | inl _ => mret (WriteHeader StatusInternalServerError w)
  | inr req =>
      if negb (PushVersion req =? 1)%Z
      then mret (WriteHeader StatusInternalServerError w)
      else
        err ← handlePush rep (req_Context r)
                {| Auth := Header_Get (Header r) "Authorization";
                   ClientGroupID := req_ClientGroupID req;
                   ProfileID := req_ProfileID req;
                   SchemaVersion := req_SchemaVersion req |}
                (req_Mutations req);
        match err with
        | Some _ => mret (WriteHeader StatusInternalServerError w)
        | None => mret (WriteHeader StatusOK w)
        end
  end.

(** *** Reading a run *)

(** The calls made between [w] and a later [w']. *)
Definition new_calls (w w' : World) : list Event :=
  drop (length (calls w)) (calls w').

Definition is_BeginTx (e : Event) : bool :=
  match e with EvBeginTx _ _ _ => true | _ => false end.

Definition is_HandlePush (e : Event) : bool :=
  match e with EvHandlePush _ _ _ => true | _ => false end.

Definition is_Commit (e : Event) : bool :=
  match e with EvCommit _ _ => true | _ => false end.

(** A mutation, a push request and a call with the timestamps blanked:
    two batches that agree on these are identical except in their
    [Timestamp] fields. *)
Definition erase_Timestamp (m : Mutation) : Mutation :=
  {| ClientID := ClientID m; ID := ID m; Name := Name m; Args := Args m;
     Timestamp := 0%float |}.

Definition erase_PushRequest (pr : PushRequest) : PushRequest :=
  {| push_ClientInfo := push_ClientInfo pr;
     push_Mutations := map erase_Timestamp (push_Mutations pr);
     push_Tx := push_Tx pr |}.

Definition erase_Event (e : Event) : Event :=
  match e with
  | EvHandlePush ctx pr res => EvHandlePush ctx (erase_PushRequest pr) res
  | _ => e
  end.

(** The [PushRequest] that [handlePush] builds. *)
Definition mkPushRequest (info : ClientInfo) (mutations : list Mutation)
    (tx : Tx) : PushRequest :=
  {| push_ClientInfo := info; push_Mutations := mutations; push_Tx := tx |}.

(** The [ClientInfo] that [PushHandler] builds from the request and the
    decoded body. *)
Definition pushClientInfo (r : Request) (req : pushBody) : ClientInfo :=
  {| Auth := Header_Get (Header r) "Authorization";
     ClientGroupID := req_ClientGroupID req;
     ProfileID := req_ProfileID req;
     SchemaVersion := req_SchemaVersion req |}.

(** The handle [BeginTx] returns to a push that starts in [w], the world
    in which the Handler of that push then runs, and what the Handler
    returns and leaves behind there. *)
Definition push_tx (w : World) : Tx :=
  {| tx_id := next_tx w; tx_opts := pushTxOptions |}.

Definition begun (ctx : Ctx) (w : World) : World :=
  log (EvBeginTx ctx pushTxOptions (inr (push_tx w)))
    {| store := store w;
       txs := <[next_tx w := store w]> (txs w);
       next_tx := Datatypes.S (next_tx w);
       calls := calls w |}.

Definition handler_outcome (rep : Replicache) (ctx : Ctx) (info : ClientInfo)
    (mutations : list Mutation) (w : World) : option error * World :=
  run_prog (push_tx w)
    (HandlePush (handler rep) ctx (mkPushRequest info mutations (push_tx w)))
    (begun ctx w).

(** The transaction of the handle is open. *)
Definition tx_open (tx : Tx) (w : World) : Prop :=
  is_Some (txs w !! tx_id tx).

End Core.

Arguments Return {S R} res.
Arguments Query {S R} k.
Arguments Exec {S R} f k.
Arguments TxCommit {S R} k.
Arguments TxRollback {S R} k.

(** ** The pull pipeline *)

Module PullSpec.

(** Modelled from the spec: the [Client] row of section 3 (owning group
    and [LastMutationID]); the source declares no client record. *)
Record Client := {
  client_ClientGroupID : string;
  LastMutationID : Z
}.

(** Modelled from the spec: the [ClientGroup] row of section 3 (owning
    profile; the members are the clients whose row names the group). *)
Record ClientGroup := {
  group_ProfileID : string
}.

(** Modelled from the spec: the rows the registry of section 4.2 keeps,
    by [ClientGroupID] and by [ClientID]. *)
Record Registry := {
  groups : gmap string ClientGroup;
  clients : gmap string Client
}.

(** Modelled from the spec: the errors of section 7 that a pull can end
    with. *)
Definition UnknownClientGroup : error := "UnknownClientGroup".
Definition AuthMismatch : error := "AuthMismatch".

Section Pull.

(** [D]: the domain state the Handler owns; [Cookie], [Patch]: opaque
    to the core. *)
Context {D Ctx DB Cookie Patch : Type}.

Variable begin_fault : DB -> Ctx -> TxOptions -> Registry * D -> option error.
Variable commit_outcome : Registry * D -> Registry * D -> CommitOutcome.
Variable rollback_fault : Registry * D -> option error.

(** Modelled from the spec: the result [{cookie', patch,
    lastMutationIDChanges}] of section 4.4. *)
Record PullResult := {
  res_cookie : Cookie;
  res_patch : Patch;
  lastMutationIDChanges : gmap string Z
}.

(** Modelled from the spec: [ComputePull(tx, ClientInfo, cookie) ->
    (patch, newCookie, error)] of section 4.5, working on the domain
    state of the transaction. (The [HandlePull] the source declares takes
    a [PullRequest] without a cookie and returns [(any, error)]; nothing
    in the source calls it.) *)
Definition ComputePullFn : Type :=
  ClientInfo -> Cookie -> D -> D * (error + Patch * Cookie).

(** Modelled from the spec: resolving the client group without
    creating it (section 4.2 with creation off, as section 4.4 step 1
    asks). *)
Definition resolveGroup (reg : Registry) (info : ClientInfo)
    : error + ClientGroup :=
  match groups reg !! ClientGroupID info with
  | None => inl UnknownClientGroup
  | Some g =>
      if decide (group_ProfileID g = ProfileID info)
      then inr g else inl AuthMismatch
  end.

(** Modelled from the spec: the current [LastMutationID] of every
    client of the group (section 4.4 step 3). *)
Definition groupLastMutationIDs (reg : Registry) (gid : string)
    : gmap string Z :=
  LastMutationID <$>
    filter (fun kc => client_ClientGroupID kc.2 = gid) (clients reg).

(** Reading and replacing the contents of an open transaction. *)
Definition read_tx (tx : Tx) : @M (Registry * D) Ctx (option (Registry * D)) :=
  fun w => (txs w !! tx_id tx, w).

Definition write_tx (tx : Tx) (s : Registry * D) : @M (Registry * D) Ctx unit :=
  fun w =>
    (tt, {| store := store w;
            txs := match txs w !! tx_id tx with
                   | Some _ => <[tx_id tx := s]> (txs w)
                   | None => txs w
                   end;
            next_tx := next_tx w;
            calls := calls w |}).

(** Modelled from the spec: the pull pipeline of section 4.4, which the
    source does not contain (it declares [PullHandler] and
    [PullRequest] only). One serializable transaction; the group is
    resolved without creating it, the Handler computes the patch and
    the new cookie, the last mutation IDs of the group are read, and
    the transaction is committed. *)
Definition handlePull (d : DB) (compute : ComputePullFn) (ctx : Ctx)
    (info : ClientInfo) (cookie : Cookie)
    : @M (Registry * D) Ctx (error + PullResult) :=
  r ← BeginTx begin_fault d ctx pushTxOptions;
  match r with
  | inl err => mret (inl err)
  | inr tx =>
      defer (Rollback rollback_fault tx)
        (work ← read_tx tx;
         match work with
         | None => mret (inl ErrTxDone)
         | Some (reg, dom) =>
             match resolveGroup reg info with
             | inl err => mret (inl err)
             | inr _ =>
                 match compute info cookie dom with
                 | (_, inl err) => mret (inl err)
                 | (d', inr (patch, cookie')) =>
                     _ ← write_tx tx (reg, d');
                     let ids := groupLastMutationIDs reg (ClientGroupID info) in
                     err ← Commit commit_outcome tx;
                     match err with
                     | Some err => mret (inl err)
                     | None =>
                         mret (inr {| res_cookie := cookie';
                                      res_patch := patch;
                                      lastMutationIDChanges := ids |})
                     end
                 end
             end
         end)
  end.

End Pull.

End PullSpec.

(** ** A small installation

    A database with a table of client rows and a journal of applied
    mutations, three handlers over it, a driver that never refuses and a
    decoder for three bodies. The examples below run the core on it. *)

Module Fixture.

(** [rows]: client ID to owning group and last mutation ID;
    [journal]: the names of the mutations applied, oldest first. *)
Record Db := {
  rows : gmap string (string * Z);
  journal : list string
}.

(** Applies the mutations in order, whatever their IDs, by appending
    their names to the journal; a mutation named [fail] stops the batch
    with an error, after the mutations before it were applied. *)
Fixpoint apply_all (ms : list Mutation) (s : Db) : Db * option error :=
  match ms with
  | [] => (s, None)
  | m :: rest =>
      if String.eqb (Name m) "fail"
      then (s, Some "handler: cannot apply")
      else apply_all rest
             {| rows := rows s; journal := journal s ++ [Name m] |}
  end.

(** Writes what [apply_all] gives into the transaction and leaves the
    transaction to the core. *)
Definition journal_handler : @Handler Db unit unit :=
  {| HandlePush := fun _ pr =>
       on_contents (Some ErrTxDone) (apply_all (push_Mutations pr));
     HandlePull := fun _ _ => Return (tt, None) |}.

(** Like [journal_handler], but refuses a batch that carries a
    timestamp later than 1000. *)
Definition clock_handler : @Handler Db unit unit :=
  {| HandlePush := fun _ pr =>
       if existsb (fun m => PrimFloat.ltb 1000 (Timestamp m))
            (push_Mutations pr)
       then Return (Some "handler: timestamp in the future")
       else on_contents (Some ErrTxDone) (apply_all (push_Mutations pr));
     HandlePull := fun _ _ => Return (tt, None) |}.

(** A handler that ends the transaction it was handed: it writes the
    batch, commits the transaction itself and then returns an error. *)
Definition committing_handler : @Handler Db unit unit :=
  {| HandlePush := fun _ pr =>
       Exec (fun s => (apply_all (push_Mutations pr) s).1)
         (fun _ => TxCommit
            (fun _ => Return (Some "handler: failed after its own commit")));
     HandlePull := fun _ _ => Return (tt, None) |}.

(** The handle of the database. *)
Definition pool : string := "replicache".

Definition rep0 : @Replicache Db unit unit string :=
  newDefaultInstance pool journal_handler.

Definition rep_clock : @Replicache Db unit unit string :=
  newDefaultInstance pool clock_handler.

Definition rep_committing : @Replicache Db unit unit string :=
  newDefaultInstance pool committing_handler.

Definition no_begin_fault : string -> unit -> TxOptions -> Db -> option error :=
  fun _ _ _ _ => None.

Definition commit_ok : Db -> Db -> CommitOutcome :=
  fun _ _ => CommitOK.

(** A driver under a context that is done when [Commit] is reached, and
    one that loses the acknowledgement of a commit. *)
Definition commit_cancelled : Db -> Db -> CommitOutcome :=
  fun _ _ => CommitCancelled "context canceled".

Definition commit_lost : Db -> Db -> CommitOutcome :=
  fun _ _ => CommitLost "driver: bad connection".

Definition rollback_ok : Db -> option error :=
  fun _ => None.

Definition mut (cid : string) (id : Z) (name : string) (ts : float)
    : Mutation :=
  {| ClientID := cid; ID := id; Name := name; Args := "{}";
     Timestamp := ts |}.

(** Mutations of client [c1]: number 2 (already applied in [db0]
    below), number 3 with an early and with a late timestamp, number 4,
    and a number 4 that the journal handlers cannot apply. *)
Definition m2 : Mutation := mut "c1" 2 "incr" 1.
Definition m3 : Mutation := mut "c1" 3 "incr" 17.
Definition m3_late : Mutation := mut "c1" 3 "incr" 2000.
Definition m4 : Mutation := mut "c1" 4 "decr" 18.
Definition m_fail : Mutation := mut "c1" 4 "fail" 18.

(** The decoder on three bodies: a version 1 push of mutation 3 of
    client [c1], the same push marked version 2, and anything else,
    which does not parse. *)
Definition decode (b : string) : error + pushBody :=
  if String.eqb b "push-v1" then
    inr {| PushVersion := 1; req_ClientGroupID := "G1";
           req_Mutations := [m3];
           req_ProfileID := "P1"; req_SchemaVersion := "1" |}
  else if String.eqb b "push-v2" then
    inr {| PushVersion := 2; req_ClientGroupID := "G1";
           req_Mutations := [m3];
           req_ProfileID := "P1"; req_SchemaVersion := "1" |}
  else inl "invalid character".

Definition request (b : string) : @Request unit :=
  {| Body := b;
     Header := {[ "Authorization" := ["Bearer t0k3n"] ]};
     req_Context := tt |}.

(** Client [c1] of group [G1] has had mutations 1 and 2 applied. *)
Definition db0 : Db :=
  {| rows := {[ "c1" := ("G1", 2) ]}; journal := ["init"; "incr"] |}.

Definition world0 : @World Db unit :=
  {| store := db0; txs := ∅; next_tx := 0; calls := [] |}.

Definition info_G1 : ClientInfo :=
  {| Auth := "Bearer t0k3n"; ClientGroupID := "G1"; ProfileID := "P1";
     SchemaVersion := "1" |}.

Definition info_G2 : ClientInfo :=
  {| Auth := "Bearer t0k3n"; ClientGroupID := "G2"; ProfileID := "P1";
     SchemaVersion := "1" |}.

Definition tx0 : Tx := {| tx_id := 0; tx_opts := pushTxOptions |}.

Definition push (rep : @Replicache Db unit unit string) (info : ClientInfo)
    (ms : list Mutation) : M (option error) :=
  handlePush no_begin_fault commit_ok rollback_ok rep tt info ms.

Definition serve (rep : @Replicache Db unit unit string) (b : string)
    : M ResponseWriter :=
  PushHandler no_begin_fault commit_ok rollback_ok decode rep fresh_writer
    (request b).

End Fixture.

(** A registry and a Handler for the pull pipeline: group [G1] of profile
    [P1] with clients [c1] and [c2], group [G2] with client [c3]; the
    domain state is a version number, the cookie the version last seen,
    the patch the versions in between. *)

Module PullFixture.

Import PullSpec.

Definition registry0 : Registry :=
  {| groups := {[ "G1" := {| group_ProfileID := "P1" |};
                  "G2" := {| group_ProfileID := "P2" |} ]};
     clients := {[ "c1" := {| client_ClientGroupID := "G1";
                              LastMutationID := 2 |};
                   "c2" := {| client_ClientGroupID := "G1";
                              LastMutationID := 5 |};
                   "c3" := {| client_ClientGroupID := "G2";
                              LastMutationID := 1 |} ]} |}.

Definition compute : @ComputePullFn nat nat (list nat) :=
  fun _ cookie version =>
    (version, inr (seq (Datatypes.S cookie) (version - cookie), version)).

Definition world0 : @World (Registry * nat) unit :=
  {| store := (registry0, 7%nat); txs := ∅; next_tx := 0; calls := [] |}.

Definition info (gid profile : string) : ClientInfo :=
  {| Auth := ""; ClientGroupID := gid; ProfileID := profile;
     SchemaVersion := "1" |}.

Definition pull (gid profile : string) (cookie : nat)
    : M (error + PullResult) :=
  handlePull (fun _ _ _ _ => None) (fun _ _ => CommitOK) (fun _ => None)
    Fixture.pool compute tt (info gid profile) cookie.

End PullFixture.

(** Two values of the [Option] type, for the examples: one sets
    [clientOnPush], one sets [clientPurgeDuration] and refuses a negative
    duration. *)

Module OptionFixture.

Definition withClientOnPush (b : bool)
    : @Replicache Fixture.Db unit unit string ->
      error + @Replicache Fixture.Db unit unit string :=
  fun r =>
    inr {| db := db r; handler := handler r; clientOnPush := b;
           clientOnPull := clientOnPull r;
           clientPurgeDuration := clientPurgeDuration r |}.

Definition withPurgeDuration (d : Z)
    : @Replicache Fixture.Db unit unit string ->
      error + @Replicache Fixture.Db unit unit string :=
  fun r =>
    if (d <? 0)%Z then inl "purge duration is negative"
    else inr {| db := db r; handler := handler r;
                clientOnPush := clientOnPush r;
                clientOnPull := clientOnPull r;
                clientPurgeDuration := d |}.

(** A request that carries no [Authorization] header. *)
Definition anonymous_request (b : string) : @Request unit :=
  {| Body := b; Header := ∅; req_Context := tt |}.

End OptionFixture.

(** ** What a run of the core looks like *)

Section CoreFacts.

Context {S Ctx Any DB : Type}.
Variable begin_fault : DB -> Ctx -> TxOptions -> S -> option error.
Variable commit_outcome : S -> S -> CommitOutcome.
Variable rollback_fault : S -> option error.
Variable json_Decode : string -> error + pushBody.

Abbreviation Rep := (@Replicache S Ctx Any DB).
Abbreviation W := (@World S Ctx).
Abbreviation run_push :=
  (@handlePush S Ctx Any DB begin_fault commit_outcome rollback_fault).
Abbreviation commit_db := (@tx_commit S Ctx commit_outcome).
Abbreviation rollback_db := (@tx_rollback S Ctx rollback_fault).
Abbreviation run_handler := (@run_prog S Ctx commit_outcome rollback_fault).
Abbreviation outcome :=
  (@handler_outcome S Ctx Any DB commit_outcome rollback_fault).

(** *** The database operations *)

Lemma tx_commit_log tx e (w : W) :
  commit_db tx (log e w) = ((commit_db tx w).1, log e (commit_db tx w).2).
Proof.
  unfold tx_commit, log; cbn [store txs next_tx calls].
  destruct (txs w !! tx_id tx) as [work|]; [|reflexivity].
  destruct (commit_outcome (store w) work); reflexivity.
Qed.

Lemma tx_rollback_log tx e (w : W) :
  rollback_db tx (log e w) = ((rollback_db tx w).1, log e (rollback_db tx w).2).
Proof.
  unfold tx_rollback, log; cbn [store txs next_tx calls].
  destruct (txs w !! tx_id tx) as [work|]; reflexivity.
Qed.

Lemma tx_commit_frame tx (w : W) :
  calls (commit_db tx w).2 = calls w /\ next_tx (commit_db tx w).2 = next_tx w.
Proof.
  unfold tx_commit. destruct (txs w !! tx_id tx) as [work|]; [|auto].
  destruct (commit_outcome (store w) work); auto.
Qed.

Lemma tx_rollback_frame tx (w : W) :
  calls (rollback_db tx w).2 = calls w /\
  next_tx (rollback_db tx w).2 = next_tx w /\
  store (rollback_db tx w).2 = store w.
Proof.
  unfold tx_rollback. destruct (txs w !! tx_id tx) as [work|]; auto.
Qed.

(** Once the transaction is over, it stays over. *)
Lemma tx_commit_closed tx (w : W) :
  txs w !! tx_id tx = None -> commit_db tx w = (Some ErrTxDone, w).
Proof. intros E. unfold tx_commit. rewrite E. reflexivity. Qed.

Lemma tx_rollback_closed tx (w : W) :
  txs w !! tx_id tx = None -> rollback_db tx w = (Some ErrTxDone, w).
Proof. intros E. unfold tx_rollback. rewrite E. reflexivity. Qed.

(** A commit that changes the store ends the transaction; one that leaves
    the transaction open left the whole world as it was. *)
Lemma tx_commit_open tx (w : W) :
  tx_open tx (commit_db tx w).2 -> (commit_db tx w).2 = w.
Proof.
  unfold tx_open, tx_commit.
  destruct (txs w !! tx_id tx) as [work|] eqn:E; [|reflexivity].
  destruct (commit_outcome (store w) work); cbn [snd txs];
    try reflexivity; rewrite lookup_delete_eq; intros [? ?]; discriminate.
Qed.

Lemma tx_rollback_ends tx (w : W) :
  txs (rollback_db tx w).2 !! tx_id tx = None.
Proof.
  unfold tx_rollback. destruct (txs w !! tx_id tx) as [work|] eqn:E;
    cbn [snd txs]; [apply lookup_delete_eq|exact E].
Qed.

(** *** The Handler's program *)

(** The program works on its transaction only: it neither makes calls of
    the core nor opens transactions. *)
Lemma run_prog_frame {R} tx (p : TxProg R) (w : W) :
  calls (run_handler tx p w).2 = calls w /\
  next_tx (run_handler tx p w).2 = next_tx w.
Proof.
  revert w. induction p as [res|k IH|f k IH|k IH|k IH]; intros w; cbn [run_prog].
  - auto.
  - apply IH.
  - destruct (txs w !! tx_id tx) as [work|]; [|apply IH].
    destruct (IH None {| store := store w;
                         txs := <[tx_id tx := f work]> (txs w);
                         next_tx := next_tx w; calls := calls w |}) as [H1 H2].
    auto.
  - destruct (commit_db tx w) as [res w'] eqn:E.
    destruct (IH res w') as [H1 H2]. destruct (tx_commit_frame tx w) as [H3 H4].
    rewrite E in H3, H4. cbn [snd] in H3, H4. rewrite H1, H2. auto.
  - destruct (rollback_db tx w) as [res w'] eqn:E.
    destruct (IH res w') as [H1 H2].
    destruct (tx_rollback_frame tx w) as (H3 & H4 & _).
    rewrite E in H3, H4. cbn [snd] in H3, H4. rewrite H1, H2. auto.
Qed.

(** On a transaction that is over, the program changes nothing. *)
Lemma run_prog_closed {R} tx (p : TxProg R) (w : W) :
  txs w !! tx_id tx = None -> (run_handler tx p w).2 = w.
Proof.
  revert w. induction p as [res|k IH|f k IH|k IH|k IH]; intros w E; cbn [run_prog].
  - reflexivity.
  - apply IH, E.
  - rewrite E. apply IH, E.
  - rewrite (tx_commit_closed tx w E). apply IH, E.
  - rewrite (tx_rollback_closed tx w E). apply IH, E.
Qed.

(** A program that returns with its transaction still open has persisted
    nothing: the store is what it was when the program started. *)
Lemma run_prog_open_store {R} tx (p : TxProg R) (w : W) :
  tx_open tx (run_handler tx p w).2 -> store (run_handler tx p w).2 = store w.
Proof.
  revert w. induction p as [res|k IH|f k IH|k IH|k IH]; intros w; cbn [run_prog].
  - reflexivity.
  - apply IH.
  - destruct (txs w !! tx_id tx) as [work|]; [|apply IH].
    intros H. apply IH in H. exact H.
  - destruct (commit_db tx w) as [res w'] eqn:E. intros H.
    destruct (txs w' !! tx_id tx) as [work|] eqn:Ew'.
    + assert (Hw : w' = w).
      { pose proof (tx_commit_open tx w) as Ho. rewrite E in Ho. cbn [snd] in Ho.
        apply Ho. unfold tx_open. rewrite Ew'. eauto. }
      subst w'. apply IH, H.
    + rewrite (run_prog_closed tx (k res) w' Ew') in H.
      unfold tx_open in H. rewrite Ew' in H. destruct H as [? ?]. discriminate.
  - destruct (rollback_db tx w) as [res w'] eqn:E. intros H.
    pose proof (tx_rollback_ends tx w) as Ew'. rewrite E in Ew'. cbn [snd] in Ew'.
    rewrite (run_prog_closed tx (k res) w' Ew') in H.
    unfold tx_open in H. rewrite Ew' in H. destruct H as [? ?]. discriminate.
Qed.

(** *** A run of [handlePush] *)

Lemma new_calls_app (w w' : W) (l : list Event) :
  calls w' = (calls w ++ l)%list -> new_calls w w' = l.
Proof. intros E. unfold new_calls. rewrite E. apply drop_app_length. Qed.

Lemma new_calls_log (w : W) e : new_calls w (log e w) = [e].
Proof. apply new_calls_app. reflexivity. Qed.

Lemma new_calls_refl (w : W) : new_calls w w = [].
Proof. apply new_calls_app. symmetry. apply app_nil_r. Qed.

(** What [handlePush] returns and leaves behind, path by path. When
    [BeginTx] is refused, its error and that one call. Otherwise the
    Handler runs; on its error the deferred [Rollback] follows; on no
    error [Commit] follows, its result is returned, and the deferred
    [Rollback] comes last. *)
Lemma handlePush_run (rep : Rep) ctx info ms (w : W) :
  let out := run_push rep ctx info ms w in
  let tx := push_tx w in
  let pr := mkPushRequest info ms tx in
  let hr := outcome rep ctx info ms w in
  match begin_fault (db rep) ctx pushTxOptions (store w) with
  | Some err =>
      out = (Some err, log (EvBeginTx ctx pushTxOptions (inl err)) w)
  | None =>
      match hr.1 with
      | Some err =>
          let rb := rollback_db tx hr.2 in
          out.1 = Some err /\
          store out.2 = store hr.2 /\
          txs out.2 = txs rb.2 /\
          calls out.2 =
            (calls w ++ [EvBeginTx ctx pushTxOptions (inr tx);
                         EvHandlePush ctx pr (Some err);
                         EvRollback tx rb.1])%list
      | None =>
          let cm := commit_db tx hr.2 in
          let rb := rollback_db tx cm.2 in
          out.1 = cm.1 /\
          store out.2 = store cm.2 /\
          txs out.2 = txs rb.2 /\
          calls out.2 =
            (calls w ++ [EvBeginTx ctx pushTxOptions (inr tx);
                         EvHandlePush ctx pr None;
                         EvCommit tx cm.1;
                         EvRollback tx rb.1])%list
      end
  end.
Proof.
  cbn zeta. unfold handlePush, defer, mbind, mret, M_bind, M_ret, BeginTx.
  fold pushTxOptions.
  destruct (begin_fault (db rep) ctx pushTxOptions (store w)) as [err|];
    [reflexivity|].
  fold (push_tx w). fold (begun ctx w).
  unfold call_HandlePush. cbn [push_Tx].
  fold (mkPushRequest info ms (push_tx w)).
  fold (outcome rep ctx info ms w).
  destruct (run_prog_frame (push_tx w)
              (HandlePush (handler rep) ctx (mkPushRequest info ms (push_tx w)))
              (begun ctx w)) as [Hcalls _].
  fold (outcome rep ctx info ms w) in Hcalls.
  destruct (outcome rep ctx info ms w) as [[err|] w2]; cbn [fst snd] in *.
  - unfold Rollback. rewrite tx_rollback_log.
    destruct (tx_rollback_frame (push_tx w) w2) as (Hc & _ & Hs).
    destruct (rollback_db (push_tx w) w2) as [r w3]; cbn [fst snd] in *.
    repeat split; [exact Hs|].
    cbn [log calls]. rewrite Hc, Hcalls. cbn [begun log calls].
    rewrite <- !app_assoc. reflexivity.
  - unfold Commit, Rollback. rewrite tx_commit_log.
    destruct (tx_commit_frame (push_tx w) w2) as (Hc & _).
    destruct (commit_db (push_tx w) w2) as [c w3]; cbn [fst snd] in *.
    destruct (tx_rollback_frame (push_tx w) w3) as (Hc' & _ & Hs).
    destruct c as [e|]; cbn [fst snd]; rewrite !tx_rollback_log;
      destruct (rollback_db (push_tx w) w3) as [r w4]; cbn [fst snd] in *;
      (split; [reflexivity|]); cbn [log store txs calls];
      rewrite Hc', Hc, Hcalls; cbn [begun log calls];
      rewrite <- !app_assoc; auto.
Qed.

(** The calls of a push, read off [handlePush_run]. *)
Lemma handlePush_calls (rep : Rep) ctx info ms (w : W) :
  let out := run_push rep ctx info ms w in
  let tx := push_tx w in
  let pr := mkPushRequest info ms tx in
  let hr := outcome rep ctx info ms w in
  new_calls w out.2 =
  match begin_fault (db rep) ctx pushTxOptions (store w) with
  | Some err => [EvBeginTx ctx pushTxOptions (inl err)]
  | None =>
      match hr.1 with
      | Some err =>
          [EvBeginTx ctx pushTxOptions (inr tx);
           EvHandlePush ctx pr (Some err);
           EvRollback tx (rollback_db tx hr.2).1]
      | None =>
          [EvBeginTx ctx pushTxOptions (inr tx);
           EvHandlePush ctx pr None;
           EvCommit tx (commit_db tx hr.2).1;
           EvRollback tx (rollback_db tx (commit_db tx hr.2).2).1]
      end
  end.
Proof.
  cbn zeta. pose proof (handlePush_run rep ctx info ms w) as Hrun.
  cbn zeta in Hrun.
  destruct (begin_fault (db rep) ctx pushTxOptions (store w)) as [err|].
  - rewrite Hrun. cbn [snd]. apply new_calls_log.
  - destruct (outcome rep ctx info ms w).1 as [err|];
      apply new_calls_app; apply Hrun.
Qed.

(** The endpoint: a body that does not decode, or a version other than
    1, ends in a 500 with the world untouched; otherwise the status
    follows the result of [handlePush]. *)
Lemma PushHandler_run (rep : Rep) rw r (w : W) :
  PushHandler begin_fault commit_outcome rollback_fault json_Decode rep rw r w =
  match json_Decode (Body r) with
  | inl _ => (WriteHeader StatusInternalServerError rw, w)
  | inr req =>
      if (PushVersion req =? 1)%Z then
        let out :=
          run_push rep (req_Context r) (pushClientInfo r req)
            (req_Mutations req) w in
        (WriteHeader
           (match out.1 with
            | None => StatusOK
            | Some _ => StatusInternalServerError
            end) rw, out.2)
      else (WriteHeader StatusInternalServerError rw, w)
  end.
Proof.
  unfold PushHandler. destruct (json_Decode (Body r)) as [e|req]; [reflexivity|].
  destruct (PushVersion req =? 1)%Z; cbn [negb]; [|reflexivity].
  unfold mbind, M_bind, mret, M_ret. fold (pushClientInfo r req).
  destruct (handlePush _ _ _ _ _ _ _ w) as [[e|] w']; reflexivity.
Qed.

(** *** One transaction per push *)


(** *** A Handler error aborts the push *)

(** C3, amended. When the Handler returns an error, [handlePush] returns
    that error and does not call [Commit]; the deferred [Rollback] is the
    one call that follows. Provided the Handler has not itself ended the
    transaction it was handed (it is still open when the Handler
    returns), nothing of the push is persisted: the store is what it was
    before the push, whatever the Handler had written into the
    transaction. And whenever [Commit] is called in a run, the Handler
    call of that run returned no error. *)
Theorem handlePush_handler_error_rolls_back
    (rep : Rep) ctx info ms (w : W) :
  let out := run_push rep ctx info ms w in
  let tx := push_tx w in
  let pr := mkPushRequest info ms tx in
  let hr := outcome rep ctx info ms w in
  (forall err,
      begin_fault (db rep) ctx pushTxOptions (store w) = None ->
      hr.1 = Some err ->
      out.1 = Some err /\
      List.filter is_Commit (new_calls w out.2) = [] /\
      (exists r,
          new_calls w out.2 =
            [EvBeginTx ctx pushTxOptions (inr tx);
             EvHandlePush ctx pr (Some err);
             EvRollback tx r]) /\
      (tx_open tx hr.2 -> store out.2 = store w)) /\
  (forall tx' res,
      EvCommit tx' res ∈ new_calls w out.2 ->
      tx' = tx /\
      begin_fault (db rep) ctx pushTxOptions (store w) = None /\
      hr.1 = None).
Proof.
  cbn zeta. rewrite handlePush_calls.
  pose proof (handlePush_run rep ctx info ms w) as Hrun. cbn zeta in Hrun.
  split.
  - intros err Hb Hh. rewrite Hb, Hh in *. destruct Hrun as (H1 & H2 & _).
    split; [exact H1|]. split; [reflexivity|]. split; [eauto|].
    intros Hopen. rewrite H2. unfold handler_outcome in *.
    apply run_prog_open_store in Hopen. exact Hopen.
  - intros tx' res.
    destruct (begin_fault (db rep) ctx pushTxOptions (store w)) as [e|].
    + intros Hin. apply list_elem_of_singleton in Hin. discriminate.
    + destruct (outcome rep ctx info ms w).1 as [e|]; intros Hin;
        repeat (apply elem_of_cons in Hin as [Hin|Hin]; [try discriminate|]);
        try (apply elem_of_nil in Hin; contradiction).
      injection Hin as -> _. auto.
Qed.

(** *** The push endpoint *)

Abbreviation run_endpoint :=
  (@PushHandler S Ctx Any DB begin_fault commit_outcome rollback_fault
     json_Decode).

(** C6. On a decoded request whose [pushVersion] is not 1 the endpoint
    answers 500 and makes no call at all (the world is unchanged, so
    [handlePush] did not run). On a decoded version 1 request the answer
    is an empty 200 when [handlePush] returns no error and an empty 500
    when it returns one; a body that does not decode gets an empty 500.
    No other answer exists. *)
Theorem PushHandler_version_and_status (rep : Rep) r (w : W) :
  let out := run_endpoint rep fresh_writer r w in
  (forall req,
      json_Decode (Body r) = inr req -> PushVersion req <> 1 ->
      response out.1 = (StatusInternalServerError, "") /\
      out.2 = w /\ new_calls w out.2 = []) /\
  (forall req,
      json_Decode (Body r) = inr req -> PushVersion req = 1 ->
      let res :=
        run_push rep (req_Context r) (pushClientInfo r req)
          (req_Mutations req) w in
      out.2 = res.2 /\
      (res.1 = None -> response out.1 = (StatusOK, "")) /\
      (forall err, res.1 = Some err ->
                   response out.1 = (StatusInternalServerError, ""))) /\
  (forall err,
      json_Decode (Body r) = inl err ->
      response out.1 = (StatusInternalServerError, "")) /\
  (response out.1 = (StatusOK, "") \/
   response out.1 = (StatusInternalServerError, "")).
Proof.
  cbn zeta. rewrite PushHandler_run.
  destruct (json_Decode (Body r)) as [e|req].
  - split; [discriminate|]. split; [discriminate|].
    split; [reflexivity|]. right; reflexivity.
  - destruct (Z.eqb_spec (PushVersion req) 1) as [Hv|Hv].
    + cbn zeta. split; [intros req' [= <-] Hne; contradiction|].
      split; [|split; [discriminate|]].
      * intros req' [= <-] _.
        destruct (run_push _ _ _ _ w) as [[e|] w']; cbn [fst snd].
        -- split; [reflexivity|]. split; [discriminate|reflexivity].
        -- split; [reflexivity|]. split; [reflexivity|discriminate].
      * destruct (run_push _ _ _ _ w) as [[e|] w']; cbn [fst snd];
          [right|left]; reflexivity.
    + split.
      * intros _ _ _. cbn [fst snd]. rewrite new_calls_refl. auto.
      * split; [intros req' [= <-] Heq; contradiction|].
        split; [discriminate|]. right; reflexivity.
Qed.

(** C10. A request whose body does not decode, or decodes to a
    [pushVersion] other than 1, is answered with an empty 500; the world
    is left as it was: [BeginTx] is not called, so no transaction is
    opened, and the Handler is not invoked. *)
Theorem PushHandler_malformed_no_effect (rep : Rep) r (w : W) :
  (exists err, json_Decode (Body r) = inl err) \/
  (exists req, json_Decode (Body r) = inr req /\ PushVersion req <> 1) ->
  let out := run_endpoint rep fresh_writer r w in
  response out.1 = (StatusInternalServerError, "") /\
  out.2 = w /\
  List.filter is_BeginTx (new_calls w out.2) = [] /\
  List.filter is_HandlePush (new_calls w out.2) = [].
Proof.
  intros H. cbn zeta. rewrite PushHandler_run.
  destruct H as [[err ->]|[req [-> Hv]]].
  - cbn [fst snd]. rewrite new_calls_refl. auto.
  - apply Z.eqb_neq in Hv. rewrite Hv. cbn [fst snd].
    rewrite new_calls_refl. auto.
Qed.


(** *** What the core leaves to the Handler *)

(** The flags of the instance are not read by [handlePush]. *)
Lemma handlePush_reads_handler_only (rep rep' : Rep) ctx info ms (w : W) :
  handler rep = handler rep' -> db rep = db rep' ->
  run_push rep ctx info ms w = run_push rep' ctx info ms w.
Proof.
  intros E E'. unfold handlePush. rewrite E, E'. reflexivity.
Qed.

(** C9, amended. The core itself never reads [Timestamp]; it hands the
    timestamps to the Handler with the batch. For two batches that are
    identical except in their [Timestamp] fields, if the Handler answers
    both alike (same error, same effect on the transaction it was
    handed), then the two pushes return the same result, leave the same
    store and the same transaction table, and make the same calls, up to
    the timestamps inside the [PushRequest] they pass on. *)
Theorem handlePush_Timestamp_only_through_handler
    (rep : Rep) ctx info ms1 ms2 (w : W) :
  map erase_Timestamp ms1 = map erase_Timestamp ms2 ->
  outcome rep ctx info ms1 w = outcome rep ctx info ms2 w ->
  let out1 := run_push rep ctx info ms1 w in
  let out2 := run_push rep ctx info ms2 w in
  out1.1 = out2.1 /\
  store out1.2 = store out2.2 /\
  txs out1.2 = txs out2.2 /\
  map erase_Event (calls out1.2) = map erase_Event (calls out2.2).
Proof.
  intros Hms Hh. cbn zeta.
  pose proof (handlePush_run rep ctx info ms1 w) as H1.
  pose proof (handlePush_run rep ctx info ms2 w) as H2.
  cbn zeta in H1, H2. rewrite Hh in H1.
  destruct (begin_fault (db rep) ctx pushTxOptions (store w)) as [e|].
  - rewrite H1, H2. auto.
  - destruct (outcome rep ctx info ms2 w) as [[e|] w2]; cbn [fst snd] in *;
      destruct H1 as (A1 & B1 & C1 & D1); destruct H2 as (A2 & B2 & C2 & D2);
      rewrite A1, A2, B1, B2, C1, C2, D1, D2;
      (repeat (split; [reflexivity|]));
      rewrite !List.map_app; cbn [map erase_Event];
      unfold erase_PushRequest, mkPushRequest;
      cbn [push_Mutations push_ClientInfo push_Tx];
      rewrite Hms; reflexivity.
Qed.

(** ** Further properties of the core *)

(** *** Building an instance *)

Lemma apply_options_app (a b : list (Rep -> error + Rep)) r :
  apply_options (a ++ b)%list r =
  match apply_options a r with
  | inl err => inl err
  | inr r' => apply_options b r'
  end.
Proof.
  revert r. induction a as [|opt a IH]; intros r; [reflexivity|].
  cbn [app apply_options]. destruct (opt r) as [err|r']; [reflexivity|].
  apply IH.
Qed.

Lemma apply_options_keep (options : list (Rep -> error + Rep)) r rep :
  (forall opt r1 r2, opt ∈ options -> opt r1 = inr r2 ->
                     handler r2 = handler r1 /\ db r2 = db r1) ->
  apply_options options r = inr rep ->
  handler rep = handler r /\ db rep = db r.
Proof.
  revert r. induction options as [|opt options IH]; intros r Hkeep Hrun.
  - injection Hrun as <-. auto.
  - cbn [apply_options] in Hrun. destruct (opt r) as [err|r'] eqn:Hopt;
      [discriminate|].
    destruct (Hkeep opt r r') as [Hh Hd];
      [apply elem_of_cons; left; reflexivity|exact Hopt|].
    destruct (IH r') as [Hh' Hd']; [|exact Hrun|].
    + intros o r1 r2 Hin. apply Hkeep. apply elem_of_cons. right. exact Hin.
    + split; congruence.
Qed.

(** X1. [NewReplicache] stops at the first option that fails: when the
    options before it succeed in turn and it returns an error on the
    instance they produce, that error is the result, whatever options
    follow. *)
Theorem NewReplicache_first_error
    (d : DB) (h : @Handler S Ctx Any) pre opt post r err :
  NewReplicache d h pre = inr r ->
  opt r = inl err ->
  NewReplicache d h (pre ++ opt :: post)%list = inl err.
Proof.
  unfold NewReplicache. intros Hpre Hopt.
  rewrite apply_options_app, Hpre. cbn [apply_options]. rewrite Hopt.
  reflexivity.
Qed.

(** X2. The options are applied from left to right, each to the instance
    the one before it returned: building with [a ++ b] is building with
    [a] and then applying [b] to the result, and fails where [a] fails. *)
Theorem NewReplicache_options_compose (d : DB) (h : @Handler S Ctx Any) a b :
  NewReplicache d h (a ++ b)%list =
  match NewReplicache d h a with
  | inl err => inl err
  | inr r => apply_options b r
  end.
Proof. unfold NewReplicache. apply apply_options_app. Qed.

Lemma PushHandler_reads_handler_only (rep rep' : Rep) rw r w :
  handler rep = handler rep' -> db rep = db rep' ->
  run_endpoint rep rw r w = run_endpoint rep' rw r w.
Proof.
  intros E E'. rewrite !PushHandler_run.
  destruct (json_Decode (Body r)) as [e|req]; [reflexivity|].
  destruct (PushVersion req =? 1)%Z; [|reflexivity].
  cbn zeta. rewrite (handlePush_reads_handler_only rep rep'); auto.
Qed.

(** X3. The push endpoint reads nothing of the instance but its database
    handle and its handler: an instance that [NewReplicache] builds with
    options that leave these two in place (they can set [clientOnPush],
    [clientOnPull] and [clientPurgeDuration] at will) has the given handle
    and handler and serves every request exactly as the default instance
    does. *)
Theorem NewReplicache_flags_leave_endpoint
    (d : DB) (h : @Handler S Ctx Any) options rep :
  (forall opt r1 r2, opt ∈ options -> opt r1 = inr r2 ->
                     handler r2 = handler r1 /\ db r2 = db r1) ->
  NewReplicache d h options = inr rep ->
  handler rep = h /\ db rep = d /\
  forall rw r w,
    run_endpoint rep rw r w = run_endpoint (newDefaultInstance d h) rw r w.
Proof.
  intros Hkeep Hnew. unfold NewReplicache in Hnew.
  apply apply_options_keep in Hnew; [|exact Hkeep].
  cbn [newDefaultInstance handler db] in Hnew. destruct Hnew as [Hh Hd].
  split; [exact Hh|]. split; [exact Hd|].
  intros rw r w. apply PushHandler_reads_handler_only; assumption.
Qed.

(** *** Calls of a push *)

Lemma tx_commit_None tx (w : W) :
  (commit_db tx w).1 = None ->
  txs (commit_db tx w).2 !! tx_id tx = None /\
  exists work, txs w !! tx_id tx = Some work /\ store (commit_db tx w).2 = work.
Proof.
  unfold tx_commit. destruct (txs w !! tx_id tx) as [work|]; [|discriminate].
  destruct (commit_outcome (store w) work); try discriminate.
  intros _. cbn [snd txs store]. split; [apply lookup_delete_eq|eauto].
Qed.

Lemma tx_commit_Some_store tx (w : W) err :
  (forall s work e, commit_outcome s work <> CommitLost e) ->
  (commit_db tx w).1 = Some err -> store (commit_db tx w).2 = store w.
Proof.
  intros Hlost. unfold tx_commit.
  destruct (txs w !! tx_id tx) as [work|]; [|reflexivity].
  destruct (commit_outcome (store w) work) eqn:E; try reflexivity.
  - discriminate.
  - exfalso. exact (Hlost _ _ _ E).
Qed.

(** X5. The calls of a push come in one of three shapes. [BeginTx]
    refused: that call alone, and its error is returned. Handler error:
    [BeginTx], [HandlePush], then the deferred [Rollback]. Otherwise:
    [BeginTx], [HandlePush], [Commit], whose result is the result of the
    push, then the deferred [Rollback]; when [Commit] returned no error,
    that [Rollback] finds the transaction finished and returns
    [ErrTxDone]. *)
Theorem handlePush_call_sequence (rep : Rep) ctx info ms (w : W) :
  let out := run_push rep ctx info ms w in
  let tx := push_tx w in
  let pr := mkPushRequest info ms tx in
  (exists err,
      out.1 = Some err /\
      new_calls w out.2 = [EvBeginTx ctx pushTxOptions (inl err)]) \/
  (exists err r,
      out.1 = Some err /\
      new_calls w out.2 =
        [EvBeginTx ctx pushTxOptions (inr tx);
         EvHandlePush ctx pr (Some err);
         EvRollback tx r]) \/
  (exists r,
      new_calls w out.2 =
        [EvBeginTx ctx pushTxOptions (inr tx);
         EvHandlePush ctx pr None;
         EvCommit tx out.1;
         EvRollback tx r] /\
      (out.1 = None -> r = Some ErrTxDone)).
Proof.
  cbn zeta. rewrite handlePush_calls.
  pose proof (handlePush_run rep ctx info ms w) as Hrun. cbn zeta in Hrun.
  destruct (begin_fault (db rep) ctx pushTxOptions (store w)) as [e|].
  - left. exists e. rewrite Hrun. auto.
  - destruct (outcome rep ctx info ms w) as [[e|] w2]; cbn [fst snd] in *.
    + right. left. destruct Hrun as (H1 & _). eauto.
    + right. right. destruct Hrun as (H1 & _). rewrite H1.
      eexists. split; [reflexivity|]. intros Hnone.
      apply tx_commit_None in Hnone as [Hclosed _].
      rewrite (tx_rollback_closed _ _ Hclosed). reflexivity.
Qed.

(** *** The endpoint and the store *)

(** X6. A 200 means the push is in the store: the body decoded to version
    1, the Handler returned with its transaction still open, [Commit] was
    called and returned no error, and the store is what the Handler left
    in that transaction. A 500 leaves the store as it was before the
    request, provided the Handler does not itself end the transaction it
    is handed and the driver never returns an error for a commit that
    went through. *)
Theorem PushHandler_store_changes_only_on_200 (rep : Rep) r (w : W) :
  let out := run_endpoint rep fresh_writer r w in
  let tx := push_tx w in
  let hr req :=
    outcome rep (req_Context r) (pushClientInfo r req) (req_Mutations req) w in
  ((response out.1).1 = StatusOK ->
   exists req work,
     json_Decode (Body r) = inr req /\ PushVersion req = 1 /\
     EvCommit tx None ∈ new_calls w out.2 /\
     (hr req).1 = None /\
     txs (hr req).2 !! tx_id tx = Some work /\
     store out.2 = work) /\
  ((response out.1).1 = StatusInternalServerError ->
   (forall req, json_Decode (Body r) = inr req -> tx_open tx (hr req).2) ->
   (forall s work err, commit_outcome s work <> CommitLost err) ->
   store out.2 = store w).
Proof.
  cbn zeta. rewrite PushHandler_run.
  destruct (json_Decode (Body r)) as [e|req]; [split; [discriminate|reflexivity]|].
  destruct (Z.eqb_spec (PushVersion req) 1) as [Hv|Hv];
    [|split; [discriminate|reflexivity]].
  cbn zeta. cbn [fst snd]. rewrite handlePush_calls.
  pose proof (handlePush_run rep (req_Context r) (pushClientInfo r req)
                (req_Mutations req) w) as Hrun. cbn zeta in Hrun.
  destruct (begin_fault (db rep) _ pushTxOptions (store w)) as [e|].
  { rewrite Hrun. cbn [fst snd]. split; [discriminate|reflexivity]. }
  assert (Hopen_store :
    tx_open (push_tx w)
      (outcome rep (req_Context r) (pushClientInfo r req) (req_Mutations req) w).2 ->
    store (outcome rep (req_Context r) (pushClientInfo r req)
             (req_Mutations req) w).2 = store w).
  { unfold handler_outcome. intros Ho. apply run_prog_open_store in Ho.
    exact Ho. }
  destruct (outcome rep (req_Context r) (pushClientInfo r req)
              (req_Mutations req) w) as [[e|] w2] eqn:Hout; cbn [fst snd] in *.
  - destruct Hrun as (H1 & H2 & _). rewrite H1, H2. split; [discriminate|].
    intros _ Hopen _. apply Hopen_store. specialize (Hopen req eq_refl).
    rewrite Hout in Hopen. exact Hopen.
  - destruct Hrun as (H1 & H2 & _). rewrite H1, H2.
    destruct (commit_db (push_tx w) w2).1 as [e|] eqn:Hc; cbn [fst snd]; split.
    + discriminate.
    + intros _ Hopen Hlost.
      rewrite (tx_commit_Some_store _ _ e Hlost Hc). apply Hopen_store.
      specialize (Hopen req eq_refl). rewrite Hout in Hopen. exact Hopen.
    + intros _. apply tx_commit_None in Hc as [_ (work & Hw & Hs)].
      exists req, work. rewrite Hout. cbn [fst snd].
      split; [reflexivity|]. split; [exact Hv|]. split; [|auto].
      apply elem_of_cons. right. apply elem_of_cons. right.
      apply elem_of_cons. left. reflexivity.
    + discriminate.
Qed.

(** X7. Whatever the Handler is handed comes from the request as decoded:
    every [HandlePush] call of the endpoint is made with the request's
    context, on the transaction that [BeginTx] returned for that same
    context, and its [PushRequest] carries the body's [clientGroupID],
    [profileID] and [schemaVersion] and the body's mutations, all of them
    and in the order received. *)
Theorem PushHandler_forwards_body
    (rep : Rep) rw r (w : W) ctx pr res :
  let out := run_endpoint rep rw r w in
  EvHandlePush ctx pr res ∈ new_calls w out.2 ->
  exists req,
    json_Decode (Body r) = inr req /\ PushVersion req = 1 /\
    ctx = req_Context r /\
    ClientGroupID (push_ClientInfo pr) = req_ClientGroupID req /\
    ProfileID (push_ClientInfo pr) = req_ProfileID req /\
    SchemaVersion (push_ClientInfo pr) = req_SchemaVersion req /\
    push_Mutations pr = req_Mutations req /\
    EvBeginTx (req_Context r) pushTxOptions (inr (push_Tx pr))
      ∈ new_calls w out.2.
Proof.
  cbn zeta. rewrite PushHandler_run.
  destruct (json_Decode (Body r)) as [e|req].
  { cbn [snd]. rewrite new_calls_refl. intros Hin.
    apply elem_of_nil in Hin. contradiction. }
  destruct (Z.eqb_spec (PushVersion req) 1) as [Hv|Hv].
  2:{ cbn [snd]. rewrite new_calls_refl. intros Hin.
      apply elem_of_nil in Hin. contradiction. }
  cbn zeta. cbn [snd]. rewrite handlePush_calls.
  destruct (begin_fault _ _ pushTxOptions (store w)) as [e|].
  { intros Hin. apply list_elem_of_singleton in Hin. discriminate. }
  destruct (outcome rep _ _ _ w).1 as [e|]; intros Hin;
    repeat (apply elem_of_cons in Hin as [Hin|Hin]; [try discriminate|]);
    try (apply elem_of_nil in Hin; contradiction);
    injection Hin as -> -> _; exists req;
    (repeat (split; [first [reflexivity|exact Hv]|]));
    apply elem_of_cons; left; reflexivity.
Qed.

(** X8. A request without an [Authorization] header (or with an empty
    list of values under it) is not turned away by the core: when its body
    decodes to version 1 and the transaction opens, the Handler is invoked
    with an empty [Auth], and the answer is whatever the Handler and
    [Commit] make of it: 200 when both succeed, 500 otherwise. *)
Theorem PushHandler_missing_Authorization
    (rep : Rep) r (w : W) req :
  Header r !! "Authorization" = None \/ Header r !! "Authorization" = Some [] ->
  json_Decode (Body r) = inr req ->
  PushVersion req = 1 ->
  begin_fault (db rep) (req_Context r) pushTxOptions (store w) = None ->
  let out := run_endpoint rep fresh_writer r w in
  let tx := push_tx w in
  let info := {| Auth := ""; ClientGroupID := req_ClientGroupID req;
                 ProfileID := req_ProfileID req;
                 SchemaVersion := req_SchemaVersion req |} in
  let pr := mkPushRequest info (req_Mutations req) tx in
  let hr := outcome rep (req_Context r) info (req_Mutations req) w in
  EvHandlePush (req_Context r) pr hr.1 ∈ new_calls w out.2 /\
  (response out.1).1 =
    match hr.1, (commit_db tx hr.2).1 with
    | None, None => StatusOK
    | _, _ => StatusInternalServerError
    end.
Proof.
  intros Hhdr Hdec Hv Hb. cbn zeta. rewrite PushHandler_run, Hdec.
  apply Z.eqb_eq in Hv. rewrite Hv. cbn zeta.
  assert (Hinfo : pushClientInfo r req =
                  {| Auth := ""; ClientGroupID := req_ClientGroupID req;
                     ProfileID := req_ProfileID req;
                     SchemaVersion := req_SchemaVersion req |}).
  { unfold pushClientInfo, Header_Get. destruct Hhdr as [-> | ->]; reflexivity. }
  rewrite Hinfo. cbn [fst snd]. rewrite handlePush_calls.
  match goal with
  | |- context [run_push rep ?c ?i ?m w] =>
      pose proof (handlePush_run rep c i m w) as Hrun
  end.
  cbn zeta in Hrun. rewrite Hb in *.
  destruct (outcome rep _ _ _ w) as [[e|] w2]; cbn [fst snd] in *;
    destruct Hrun as (H1 & _); rewrite H1.
  - split; [|reflexivity].
    apply elem_of_cons. right. apply elem_of_cons. left. reflexivity.
  - split.
    + apply elem_of_cons. right. apply elem_of_cons. left. reflexivity.
    + destruct (commit_db (push_tx w) w2).1; reflexivity.
Qed.

End CoreFacts.

(** ** The pull pipeline of the spec *)

Section PullFacts.

Import PullSpec.

Context {D Ctx DB Cookie Patch : Type}.
Variable begin_fault : DB -> Ctx -> TxOptions -> Registry * D -> option error.
Variable commit_outcome : Registry * D -> Registry * D -> CommitOutcome.
Variable rollback_fault : Registry * D -> option error.

Abbreviation run_pull :=
  (@handlePull D Ctx DB Cookie Patch begin_fault commit_outcome rollback_fault).

Lemma groupLastMutationIDs_lookup (reg : Registry) gid cid n :
  groupLastMutationIDs reg gid !! cid = Some n <->
  exists c, clients reg !! cid = Some c /\
            client_ClientGroupID c = gid /\ LastMutationID c = n.
Proof.
  unfold groupLastMutationIDs. rewrite lookup_fmap, fmap_Some. split.
  - intros [c [Hc ->]]. apply map_lookup_filter_Some in Hc as [Hc Hg].
    exists c. auto.
  - intros [c [Hc [Hg <-]]]. exists c. split; [|reflexivity].
    apply map_lookup_filter_Some. auto.
Qed.

Lemma handlePull_run (d : DB) (compute : ComputePullFn) ctx info cookie
    (w : @World (Registry * D) Ctx) :
  run_pull d compute ctx info cookie w =
  match begin_fault d ctx pushTxOptions (store w) with
  | Some err => (inl err, log (EvBeginTx ctx pushTxOptions (inl err)) w)
  | None =>
      let tx := {| tx_id := next_tx w; tx_opts := pushTxOptions |} in
      let after (s : Registry * D) (evs : list Event) :=
        {| store := s; txs := delete (next_tx w) (txs w);
           next_tx := Datatypes.S (next_tx w);
           calls := (calls w ++ EvBeginTx ctx pushTxOptions (inr tx) :: evs)%list |} in
      match resolveGroup (store w).1 info with
      | inl err =>
          (inl err, after (store w) [EvRollback tx (rollback_fault (store w))])
      | inr _ =>
          let cr := compute info cookie (store w).2 in
          let work := ((store w).1, cr.1) in
          match cr.2 with
          | inl err =>
              (inl err,
               after (store w) [EvRollback tx (rollback_fault (store w))])
          | inr pc =>
              match commit_outcome (store w) work with
              | CommitOK =>
                  (inr {| res_cookie := pc.2; res_patch := pc.1;
                          lastMutationIDChanges :=
                            groupLastMutationIDs (store w).1
                              (ClientGroupID info) |},
                   after work
                     [EvCommit tx None; EvRollback tx (Some ErrTxDone)])
              | CommitLost err =>
                  (inl err,
                   after work
                     [EvCommit tx (Some err); EvRollback tx (Some ErrTxDone)])
              | CommitRefused err =>
                  (inl err,
                   after (store w)
                     [EvCommit tx (Some err); EvRollback tx (Some ErrTxDone)])
              | CommitCancelled err =>
                  (inl err,
                   after (store w)
                     [EvCommit tx (Some err);
                      EvRollback tx (rollback_fault work)])
              end
          end
      end
  end.
Proof.
  unfold handlePull, defer, mbind, mret, M_bind, M_ret, BeginTx.
  destruct (begin_fault _ _ _ _) as [err|]; [reflexivity|].
  destruct w as [[reg dom] t n c].
  unfold read_tx, log; cbn [store txs next_tx calls tx_id fst snd].
  rewrite lookup_insert_eq.
  destruct (resolveGroup reg info) as [err|g].
  { unfold Rollback, tx_rollback, log; cbn [store txs next_tx calls tx_id].
    rewrite lookup_insert_eq. cbn [store txs next_tx calls].
    rewrite delete_insert_eq, <- app_assoc. reflexivity. }
  destruct (compute info cookie dom) as [d' [err|[patch cookie']]]; cbn [fst snd].
  { unfold Rollback, tx_rollback, log; cbn [store txs next_tx calls tx_id].
    rewrite lookup_insert_eq. cbn [store txs next_tx calls].
    rewrite delete_insert_eq, <- app_assoc. reflexivity. }
  unfold write_tx, Commit, Rollback, tx_commit, tx_rollback, log;
    cbn [store txs next_tx calls tx_id].
  rewrite lookup_insert_eq. cbn [store txs next_tx calls tx_id].
  rewrite lookup_insert_eq.
  destruct (commit_outcome (reg, dom) (reg, d')) as [|err|err|err];
    cbn [store txs next_tx calls tx_id fst snd];
    rewrite ?lookup_delete_eq, ?lookup_insert_eq;
    cbn [store txs next_tx calls tx_id fst snd];
    rewrite ?delete_insert_eq, <- ?app_assoc; reflexivity.
Qed.


End PullFacts.

(** ** The core on the small installation *)

Section Examples.

Import Fixture OptionFixture.

(** C1: the core at a batch that holds an already applied mutation.
    Client [c1] has last mutation ID 2 and the batch holds its mutation 2
    again. The push succeeds, the Handler was handed that mutation, and
    the journal grew by it; a second push of the batch grows the journal
    once more. *)
Lemma handlePush_applies_old_mutation_again :
  let out1 := push rep0 info_G1 [m2] world0 in
  let out2 := push rep0 info_G1 [m2] out1.2 in
  rows (store world0) !! ClientID m2 = Some ("G1", 2) /\
  (ID m2 <? 2 + 1)%Z = true /\
  out1.1 = None /\
  new_calls world0 out1.2 =
    [EvBeginTx tt pushTxOptions (inr tx0);
     EvHandlePush tt (mkPushRequest info_G1 [m2] tx0) None;
     EvCommit tx0 None;
     EvRollback tx0 (Some ErrTxDone)] /\
  journal (store world0) = ["init"; "incr"] /\
  journal (store out1.2) = ["init"; "incr"; "incr"] /\
  out2.1 = None /\
  journal (store out2.2) = ["init"; "incr"; "incr"; "incr"].
Proof. vm_compute. repeat split; reflexivity. Qed.

(** C2: the core at a batch with a gap. Client [c1] has last mutation ID
    2 and the batch holds its mutation 4, skipping 3. The push succeeds
    and the mutation is committed. *)
Lemma handlePush_accepts_gap :
  let out := push rep0 info_G1 [m4] world0 in
  rows (store world0) !! ClientID m4 = Some ("G1", 2) /\
  (2 + 1 <? ID m4)%Z = true /\
  out.1 = None /\
  journal (store world0) = ["init"; "incr"] /\
  journal (store out.2) = ["init"; "incr"; "decr"] /\
  response (serve rep0 "push-v1" world0).1 = (StatusOK, "").
Proof. vm_compute. repeat split; reflexivity. Qed.

(** C3, as stated, fails. A Handler that writes the batch, commits the
    transaction it was handed and then returns an error: [handlePush]
    returns that error and does not call [Commit], but the deferred
    [Rollback] finds the transaction finished, and the mutation is in the
    store. *)
Lemma handlePush_keeps_what_handler_committed :
  let out := push rep_committing info_G1 [m3] world0 in
  out.1 = Some "handler: failed after its own commit" /\
  new_calls world0 out.2 =
    [EvBeginTx tt pushTxOptions (inr tx0);
     EvHandlePush tt (mkPushRequest info_G1 [m3] tx0)
       (Some "handler: failed after its own commit");
     EvRollback tx0 (Some ErrTxDone)] /\
  journal (store world0) = ["init"; "incr"] /\
  journal (store out.2) = ["init"; "incr"; "incr"].
Proof. vm_compute. repeat split; reflexivity. Qed.

(** C9, as stated, fails. Two batches that differ in one timestamp only,
    through a Handler that looks at timestamps: the first push is
    committed, the second is refused. *)
Lemma handlePush_outcome_follows_Timestamp :
  let out1 := push rep_clock info_G1 [m3] world0 in
  let out2 := push rep_clock info_G1 [m3_late] world0 in
  map erase_Timestamp [m3] = map erase_Timestamp [m3_late] /\
  out1.1 = None /\
  out2.1 = Some "handler: timestamp in the future" /\
  journal (store out1.2) = ["init"; "incr"; "incr"] /\
  journal (store out2.2) = ["init"; "incr"] /\
  List.filter is_Commit (new_calls world0 out1.2) = [EvCommit tx0 None] /\
  List.filter is_Commit (new_calls world0 out2.2) = [].
Proof. vm_compute. repeat split; reflexivity. Qed.

(** C4: the core at a batch that names a client of another group. Client
    [c1] belongs to group [G1]; the push comes from group [G2], with the
    instance set to create clients on push or not. The core calls
    [BeginTx], the Handler, [Commit] and [Rollback], nothing else: no
    client is resolved, the push succeeds and the mutation is
    committed. *)
Lemma handlePush_resolves_no_client :
  let rep_create :=
    {| db := pool; handler := journal_handler; clientOnPush := true;
       clientOnPull := false; clientPurgeDuration := 0 |} in
  let out := push rep0 info_G2 [m3] world0 in
  rows (store world0) !! ClientID m3 = Some ("G1", 2) /\
  ClientGroupID info_G2 = "G2" /\
  out.1 = None /\
  new_calls world0 out.2 =
    [EvBeginTx tt pushTxOptions (inr tx0);
     EvHandlePush tt (mkPushRequest info_G2 [m3] tx0) None;
     EvCommit tx0 None;
     EvRollback tx0 (Some ErrTxDone)] /\
  journal (store out.2) = ["init"; "incr"; "incr"] /\
  rows (store out.2) = rows (store world0) /\
  push rep_create info_G2 [m3] world0 = out.
Proof. vm_compute. repeat split; reflexivity. Qed.

(** Under a context that is done when [Commit] is reached, [Commit]
    returns the error of the context and leaves the transaction to the
    deferred [Rollback], which ends it and returns no error; nothing is
    persisted. *)
Lemma handlePush_commit_on_done_context :
  let out :=
    handlePush no_begin_fault commit_cancelled rollback_ok rep0 tt info_G1
      [m3] world0 in
  out.1 = Some "context canceled" /\
  new_calls world0 out.2 =
    [EvBeginTx tt pushTxOptions (inr tx0);
     EvHandlePush tt (mkPushRequest info_G1 [m3] tx0) None;
     EvCommit tx0 (Some "context canceled");
     EvRollback tx0 None] /\
  store out.2 = db0.
Proof. vm_compute. repeat split; reflexivity. Qed.

(** When the driver loses the acknowledgement of a commit, the push fails
    and the endpoint would answer 500, yet the mutation is in the
    store. *)
Lemma handlePush_commit_lost :
  let out :=
    handlePush no_begin_fault commit_lost rollback_ok rep0 tt info_G1
      [m3] world0 in
  out.1 = Some "driver: bad connection" /\
  journal (store out.2) = ["init"; "incr"; "incr"].
Proof. vm_compute. repeat split; reflexivity. Qed.

(** *** The theorems at work *)

(** C3, amended, on a batch whose second mutation the Handler cannot
    apply: the first mutation had been written into the transaction,
    which the Handler left open, and nothing of it is in the store
    afterwards. *)
Lemma handlePush_handler_error_rolls_back_witness :
  let ms := [m3; m_fail] in
  let out := push rep0 info_G1 ms world0 in
  let hr :=
    handler_outcome commit_ok rollback_ok rep0 tt info_G1 ms world0 in
  txs hr.2 !! tx_id tx0
    = Some {| rows := rows db0; journal := ["init"; "incr"; "incr"] |} /\
  out.1 = Some "handler: cannot apply" /\
  List.filter is_Commit (new_calls world0 out.2) = [] /\
  store out.2 = db0.
Proof.
  cbn zeta. split; [reflexivity|].
  destruct (handlePush_handler_error_rolls_back no_begin_fault commit_ok
              rollback_ok rep0 tt info_G1 [m3; m_fail] world0) as [H _].
  destruct (H "handler: cannot apply" eq_refl eq_refl) as (H1 & H2 & _ & H4).
  split; [exact H1|]. split; [exact H2|].
  apply H4. eexists. reflexivity.
Defined.

(** C6 on a version 2 body and on a version 1 body. *)
Lemma PushHandler_version_and_status_witness :
  response (serve rep0 "push-v2" world0).1 = (StatusInternalServerError, "") /\
  (serve rep0 "push-v2" world0).2 = world0 /\
  response (serve rep0 "push-v1" world0).1 = (StatusOK, "").
Proof.
  destruct (PushHandler_version_and_status no_begin_fault commit_ok
              rollback_ok decode rep0 (request "push-v2") world0) as (H2 & _).
  destruct (H2 _ eq_refl) as (Ha & Hb & _); [vm_compute; discriminate|].
  destruct (PushHandler_version_and_status no_begin_fault commit_ok
              rollback_ok decode rep0 (request "push-v1") world0)
    as (_ & H1 & _).
  destruct (H1 _ eq_refl eq_refl) as (_ & Hc & _).
  split; [exact Ha|]. split; [exact Hb | exact (Hc eq_refl)].
Defined.

(** C10 on a body that does not parse and on a version 2 body. *)
Lemma PushHandler_malformed_no_effect_witness :
  (response (serve rep0 "]" world0).1 = (StatusInternalServerError, "") /\
   (serve rep0 "]" world0).2 = world0) /\
  (response (serve rep0 "push-v2" world0).1 = (StatusInternalServerError, "") /\
   (serve rep0 "push-v2" world0).2 = world0).
Proof.
  split.
  - destruct (PushHandler_malformed_no_effect no_begin_fault commit_ok
                rollback_ok decode rep0 (request "]") world0) as (H1 & H2 & _).
    + left. exists "invalid character". reflexivity.
    + split; assumption.
  - destruct (PushHandler_malformed_no_effect no_begin_fault commit_ok
                rollback_ok decode rep0 (request "push-v2") world0)
      as (H1 & H2 & _).
    + right. eexists. split; [reflexivity|]. vm_compute. discriminate.
    + split; assumption.
Defined.


(** C9, amended, with a Handler that does not look at timestamps. *)
Lemma handlePush_Timestamp_only_through_handler_witness :
  (push rep0 info_G1 [m3] world0).1 = (push rep0 info_G1 [m3_late] world0).1 /\
  store (push rep0 info_G1 [m3] world0).2 =
    store (push rep0 info_G1 [m3_late] world0).2.
Proof.
  destruct (handlePush_Timestamp_only_through_handler no_begin_fault
              commit_ok rollback_ok rep0 tt info_G1 [m3] [m3_late] world0)
    as (H1 & H2 & _); [reflexivity | reflexivity |].
  split; assumption.
Defined.


End Examples.

(** ** The further properties on the small installation *)

Section MoreExamples.

Import Fixture OptionFixture.

(** X1 on three options, the second of which refuses its argument. *)
Lemma NewReplicache_first_error_witness :
  NewReplicache pool journal_handler
    [withClientOnPush true; withPurgeDuration (-1); withClientOnPush false]
  = inl "purge duration is negative".
Proof.
  eapply (NewReplicache_first_error pool journal_handler
            [withClientOnPush true] (withPurgeDuration (-1))
            [withClientOnPush false]);
    reflexivity.
Defined.

(** X3 on an instance built with both flags set: it serves the version 1
    request as the default instance does. *)
Lemma NewReplicache_flags_leave_endpoint_witness :
  let options := [withClientOnPush true; withPurgeDuration 60] in
  exists rep,
    NewReplicache pool journal_handler options = inr rep /\
    clientOnPush rep = true /\
    clientPurgeDuration rep = 60 /\
    PushHandler no_begin_fault commit_ok rollback_ok decode rep fresh_writer
      (request "push-v1") world0
    = serve rep0 "push-v1" world0.
Proof.
  cbn zeta. eexists. split; [reflexivity|].
  split; [reflexivity|]. split; [reflexivity|].
  apply (NewReplicache_flags_leave_endpoint no_begin_fault commit_ok
           rollback_ok decode pool journal_handler
           [withClientOnPush true; withPurgeDuration 60]);
    [|reflexivity].
  intros opt r1 r2 Hin Hopt.
  apply elem_of_cons in Hin as [->|Hin].
  - injection Hopt as <-. split; reflexivity.
  - apply list_elem_of_singleton in Hin as ->.
    injection Hopt as <-. split; reflexivity.
Defined.

(** X6 on the version 1 request: answered 200 and committed with a driver
    that commits, answered 500 and not persisted under a context that is
    done when [Commit] is reached. *)
Lemma PushHandler_store_changes_only_on_200_witness :
  journal (store (serve rep0 "push-v1" world0).2) = ["init"; "incr"; "incr"] /\
  store (PushHandler no_begin_fault commit_cancelled rollback_ok decode rep0
           fresh_writer (request "push-v1") world0).2 = db0.
Proof.
  split.
  - destruct (PushHandler_store_changes_only_on_200 no_begin_fault commit_ok
                rollback_ok decode rep0 (request "push-v1") world0)
      as [H _].
    destruct (H eq_refl) as (req & work & Hdec & _ & _ & _ & Hwork & Hstore).
    cbv in Hdec. injection Hdec as <-.
    unfold serve. rewrite Hstore.
    cbv in Hwork. injection Hwork as <-. reflexivity.
  - destruct (PushHandler_store_changes_only_on_200 no_begin_fault
                commit_cancelled rollback_ok decode rep0 (request "push-v1")
                world0) as [_ H].
    apply H.
    + reflexivity.
    + intros req Hdec. cbv in Hdec. injection Hdec as <-.
      eexists. reflexivity.
    + intros s work err. discriminate.
Defined.

(** X7 on the version 1 request. *)
Lemma PushHandler_forwards_body_witness :
  exists req,
    decode "push-v1" = inr req /\
    req_ClientGroupID req = "G1" /\ req_ProfileID req = "P1" /\
    req_SchemaVersion req = "1" /\ req_Mutations req = [m3].
Proof.
  destruct (PushHandler_forwards_body no_begin_fault commit_ok rollback_ok
              decode rep0 fresh_writer (request "push-v1") world0 tt
              (mkPushRequest info_G1 [m3] tx0) None)
    as (req & Hdec & _ & _ & Hg & Hp & Hs & Hm & _).
  { apply elem_of_cons. right. apply elem_of_cons. left. reflexivity. }
  exists req. split; [exact Hdec|].
  split; [symmetry; exact Hg|]. split; [symmetry; exact Hp|].
  split; [symmetry; exact Hs | symmetry; exact Hm].
Defined.

(** X8 on the version 1 request without an [Authorization] header. *)
Lemma PushHandler_missing_Authorization_witness :
  let out :=
    PushHandler no_begin_fault commit_ok rollback_ok decode rep0 fresh_writer
      (anonymous_request "push-v1") world0 in
  EvHandlePush tt
    (mkPushRequest
       {| Auth := ""; ClientGroupID := "G1"; ProfileID := "P1";
          SchemaVersion := "1" |} [m3] tx0) None
    ∈ new_calls world0 out.2 /\
  (response out.1).1 = StatusOK.
Proof.
  cbn zeta.
  exact (PushHandler_missing_Authorization no_begin_fault commit_ok
           rollback_ok decode rep0 (anonymous_request "push-v1") world0 _
           (or_introl eq_refl) eq_refl eq_refl eq_refl).
Defined.

End MoreExamples.
